(** * nerdctl: the [stop] command, identifier resolution, graceful
    termination and the sign/verify transfer gate.

    The [stop] command is embedded from [cmd/nerdctl/stop.go].  Its
    collaborators live in other packages ([pkg/idutil/containerwalker],
    [pkg/containerutil], [pkg/clientutil]) and in the push and pull
    commands; they are either taken as fields of a [Runtime] record or
    modelled from the specification, and each such definition says
    so. *)

From Stdlib Require Import ZArith Lia Ascii String.
From stdpp Require Import base option list strings pretty gmap.

Local Open Scope Z_scope.

(** ** Go values *)

(** [time.Duration] is an [int64] count of nanoseconds; arithmetic on it
    wraps around in two's complement. *)
Definition wrap64 (z : Z) : Z := (z + 2 ^ 63) mod 2 ^ 64 - 2 ^ 63.

(** [time.Second]. *)
Definition Second : Z := 1000000000.

(** The line feed that ends each line the command prints. *)
Definition newline : string := String "010"%char "".

(** The [error] values the command sees.  [Errorf] is an error built by
    [fmt.Errorf] from a format without [%w]; [ErrNotFound] is an error
    of the runtime that wraps [errdefs.ErrNotFound]; [ErrRuntime] is any
    other error handed back by a collaborator. *)
Inductive error : Type :=
| Errorf (msg : string)
| ErrNotFound (msg : string)
| ErrRuntime (msg : string).

(** [errdefs.IsNotFound]. *)
Definition IsNotFound (e : error) : bool :=
  match e with
  | ErrNotFound _ => true
  | _ => false
  end.

(** The text of an error, as [err.Error()] gives it. *)
Definition Error (e : error) : string :=
  match e with
  | Errorf m | ErrNotFound m | ErrRuntime m => m
  end.

(** ** The command line, as [stopAction] reads it *)

Record GlobalOptions : Type := {
  Namespace : string;
  Address : string
}.

(** What [stopAction] asks of its [*cobra.Command]: the result of
    [processRootCmdFlags(cmd)], whether the flag [time] was set on the
    command line ([cmd.Flags().Changed("time")]) and the result of
    [cmd.Flags().GetInt("time")]. *)
Record Command : Type := {
  rootCmdFlags : error + GlobalOptions;
  timeChanged : bool;
  timeGetInt : error + Z
}.

(** ** The collaborators of the command *)

(** [World] is the state of the container runtime as seen through the
    client, [Container] a [containerd.Container].
    - [NewClient ns addr] is [clientutil.NewClient];
    - [Containers w req] is the walker's query for the containers that
      match the request [req];
    - [Stop w c timeout] is [containerutil.Stop]: its error and the
      runtime after the call;
    - [WriteOut s] is the error, if any, of writing [s] to
      [cmd.OutOrStdout()]. *)
Record Runtime (World Container : Type) : Type := {
  NewClient : string -> string -> error + World;
  Containers : World -> string -> error + list Container;
  Stop : World -> Container -> option Z -> option error * World;
  WriteOut : string -> option error
}.
Arguments NewClient {World Container} _ _ _.
Arguments Containers {World Container} _ _ _.
Arguments Stop {World Container} _ _ _ _.
Arguments WriteOut {World Container} _ _.

(** [containerwalker.Found], with the fields [stopAction] reads. *)
Record Found (Container : Type) : Type := {
  FoundContainer : Container;
  Req : string;
  MatchCount : Z
}.
Arguments FoundContainer {Container} _.
Arguments Req {Container} _.
Arguments MatchCount {Container} _.

(** One invocation of [containerutil.Stop], kept as a ghost record: the
    request it was made for, the container, the timeout passed and the
    error returned. *)
Record StopCall (Container : Type) : Type := {
  call_req : string;
  call_container : Container;
  call_timeout : option Z;
  call_result : option error
}.
Arguments call_req {Container} _.
Arguments call_container {Container} _.
Arguments call_timeout {Container} _.
Arguments call_result {Container} _.

(** What a run of the command has produced so far: the lines written to
    the standard output and to the standard error, and the calls of
    [containerutil.Stop], each oldest first. *)
Record Log (Container : Type) : Type := {
  stdout : list string;
  stderr : list string;
  calls : list (StopCall Container)
}.
Arguments stdout {Container} _.
Arguments stderr {Container} _.
Arguments calls {Container} _.

Definition emptyLog {Container : Type} : Log Container :=
  {| stdout := []; stderr := []; calls := [] |}.

Section StopCommand.
Context {World Container : Type} (rt : Runtime World Container).

Definition State : Type := World * Log Container.

(** The [OnFound] callback of [stopAction] (stop.go, lines 70-83);
    [timeout] is the variable the closure captures. *)
Definition OnFound (timeout : option Z) (st : State) (found : Found Container)
  : option error * State :=
  let '(w, log) := st in
  if 1 <? MatchCount found then
    (Some (Errorf ("multiple IDs found with provided prefix: " +:+ Req found)), st)
  else
    let '(r, w') := Stop rt w (FoundContainer found) timeout in
    let call := {| call_req := Req found;
                   call_container := FoundContainer found;
                   call_timeout := timeout;
                   call_result := r |} in
    let log1 := {| stdout := stdout log;
                   stderr := stderr log;
                   calls := calls log ++ [call] |} in
    match r with
    | Some err =>
        if IsNotFound err then
          (None, (w', {| stdout := stdout log1;
                         stderr := stderr log1 ++
                                   ["No such container: " +:+ Req found +:+ newline];
                         calls := calls log1 |}))
        else (Some err, (w', log1))
    | None =>
        match WriteOut rt (Req found +:+ newline) with
        | Some err => (Some err, (w', log1))
        | None =>
            (None, (w', {| stdout := stdout log1 ++ [Req found +:+ newline];
                           stderr := stderr log1;
                           calls := calls log1 |}))
        end
    end.

(** Modelled from the spec: [ContainerWalker.Walk] of
    [pkg/idutil/containerwalker], which is not among the sources.  The
    walker queries the runtime for the containers matching the
    request, hands each of them to the callback together with the
    request and the number of matches, stops at the first error of
    the callback, and otherwise returns the number of matches. *)
Fixpoint walkFound (onFound : State -> Found Container -> option error * State)
    (req : string) (n : Z) (cs : list Container) (st : State)
  : option error * State :=
  match cs with
  | [] => (None, st)
  | c :: cs' =>
      match onFound st {| FoundContainer := c; Req := req; MatchCount := n |} with
      | (Some err, st') => (Some err, st')
      | (None, st') => walkFound onFound req n cs' st'
      end
  end.

Definition Walk (onFound : State -> Found Container -> option error * State)
    (st : State) (req : string) : (error + Z) * State :=
  match Containers rt (fst st) req with
  | inl err => (inl err, st)
  | inr cs =>
      let n := Z.of_nat (length cs) in
      match walkFound onFound req n cs st with
      | (Some err, st') => (inl err, st')
      | (None, st') => (inr n, st')
      end
  end.

(** The loop over the arguments (stop.go, lines 85-93). *)
Fixpoint stopLoop (timeout : option Z) (st : State) (args : list string)
  : option error * State :=
  match args with
  | [] => (None, st)
  | req :: rest =>
      match Walk (OnFound timeout) st req with
      | (inl err, st') => (Some err, st')
      | (inr n, st') =>
          if n =? 0 then (Some (Errorf ("no such container " +:+ req)), st')
          else stopLoop timeout st' rest
      end
  end.

(** The timeout handed to [containerutil.Stop] (stop.go, lines 53-61):
    [nil] unless the flag was set, and then the flag's value times
    [time.Second] as a [time.Duration]. *)
Definition stopTimeout (cmd : Command) : error + option Z :=
  if timeChanged cmd then
    match timeGetInt cmd with
    | inl err => inl err
    | inr timeValue => inr (Some (wrap64 (timeValue * Second)))
    end
  else inr None.

(** [stopAction] (stop.go, lines 47-94): the error returned and the
    log of the run. *)
Definition stopAction (cmd : Command) (args : list string)
  : option error * Log Container :=
  match rootCmdFlags cmd with
  | inl err => (Some err, emptyLog)
  | inr globalOptions =>
      match stopTimeout cmd with
      | inl err => (Some err, emptyLog)
      | inr timeout =>
          match NewClient rt (Namespace globalOptions) (Address globalOptions) with
          | inl err => (Some err, emptyLog)
          | inr client =>
              let '(r, (_, log)) := stopLoop timeout (client, emptyLog) args in
              (r, log)
          end
      end
  end.
End StopCommand.

(** Modelled from the spec: the exit status of the process.  [main] is
    not among the sources; the spec's exit behaviour is that a command
    which reports an error ends the process with a nonzero status. *)
Definition exitStatus {Err : Type} (r : option Err) : Z :=
  match r with
  | None => 0
  | Some _ => 1
  end.

(** ** EntityResolver *)

Inductive LifecycleStatus : Type :=
| created | running | paused | stopped | unknown.

(** A live container known to the runtime: its unique ID, its optional
    name and its lifecycle status. *)
Record Entity : Type := {
  ID : string;
  Name : option string;
  Status : LifecycleStatus
}.

Inductive ResolutionResult : Type :=
| NotFound
| Resolved (e : Entity) (req : string)
| Ambiguous (count : Z) (req : string).

(** Modelled from the spec: the matching rule of the resolver, which
    lives in [pkg/idutil/containerwalker] and is not among the sources.
    An entity matches when the request equals its full ID, or is a
    non-empty prefix of its full ID, or equals its name exactly. *)
Definition entityMatches (req : string) (e : Entity) : bool :=
  String.eqb req (ID e)
  || (negb (String.eqb req "") && String.prefix req (ID e))
  || match Name e with
     | Some n => String.eqb req n
     | None => false
     end.

(** Modelled from the spec: the entities a request stands for.  A
    full-length match of an ID takes priority and cuts the ambiguity
    check short; otherwise every entity that matches by the rule is a
    candidate. *)
Definition candidates (E : list Entity) (req : string) : list Entity :=
  match List.find (fun e => String.eqb req (ID e)) E with
  | Some e => [e]
  | None => List.filter (entityMatches req) E
  end.

(** Modelled from the spec: [Resolve(request) -> ResolutionResult]. *)
Definition Resolve (E : list Entity) (req : string) : ResolutionResult :=
  match candidates E req with
  | [] => NotFound
  | [e] => Resolved e req
  | cs => Ambiguous (Z.of_nat (length cs)) req
  end.

(** The runtime whose state is an entity set [E]: the walker's query is
    the resolver's candidate list; the client, [containerutil.Stop] and
    the output stream remain parameters. *)
Definition entityRuntime (E : list Entity)
    (stop : list Entity -> Entity -> option Z -> option error * list Entity)
    (writeOut : string -> option error) : Runtime (list Entity) Entity :=
  {| NewClient := fun _ _ => inr E;
     Containers := fun w req => inr (candidates w req);
     Stop := stop;
     WriteOut := writeOut |}.

(** An in-memory stand-in for [containerutil.Stop]: an entity whose ID
    is in [gone] has left the runtime by the time it is stopped, and the
    call fails with a not-found error; any other entity ends up
    [stopped]. *)
Definition fakeStop (gone : list string) (E : list Entity) (e : Entity)
    (timeout : option Z) : option error * list Entity :=
  if existsb (String.eqb (ID e)) gone then
    (Some (ErrNotFound ("container " +:+ ID e +:+ ": not found")),
     List.filter (fun x => negb (String.eqb (ID x) (ID e))) E)
  else
    (None,
     map (fun x => if String.eqb (ID x) (ID e)
                   then {| ID := ID x; Name := Name x; Status := stopped |}
                   else x) E).

(** A command line without [--time], and one with [--time=v]. *)
Definition plainCommand : Command :=
  {| rootCmdFlags := inr {| Namespace := "default"; Address := "/run/containerd/containerd.sock" |};
     timeChanged := false;
     timeGetInt := inr 10 |}.

Definition timedCommand (v : Z) : Command :=
  {| rootCmdFlags := inr {| Namespace := "default"; Address := "/run/containerd/containerd.sock" |};
     timeChanged := true;
     timeGetInt := inr v |}.

(** Whether the text [needle] occurs in [s]. *)
Definition occursIn (needle s : string) : bool :=
  match String.index 0 needle s with
  | Some _ => true
  | None => false
  end.


(** ** TerminationController *)

Inductive ControllerState : Type :=
| Requested | SignalSent | AwaitingExit | Escalated | Terminated | Failed.

Inductive Signal : Type :=
| Graceful | Forceful.

(** What the runtime shows of the entity when the controller looks at
    it while it waits. *)
Inductive Observation : Type :=
| NonTerminal
| ReachedTerminal
| Disappeared
| RuntimeFault (err : error).

(** The input of the controller: the target and the optional
    escalation timeout, in clock ticks. *)
Record TerminationSpec : Type := {
  target : Entity;
  timeout : option nat
}.

(** The controller at one instant: its state, the ticks elapsed since
    the escalation timer was started, the signals issued so far (each
    with the tick it was issued at, oldest first) and the error to
    surface, if any. *)
Record Controller : Type := {
  state : ControllerState;
  elapsed : nat;
  signals : list (nat * Signal);
  surfaced : option error
}.

Section TerminationController.
(** [defaultTimeout] is the fixed value the backend uses when the spec
    carries no timeout; [observe t] is the entity as the runtime shows
    it [t] ticks after the timer was started. *)
Context (defaultTimeout : nat) (observe : nat -> Observation).

(** Modelled from the spec: a missing timeout means the backend
    default, not an unbounded wait. *)
Definition effectiveTimeout (spec : TerminationSpec) : nat :=
  match timeout spec with
  | Some t => t
  | None => defaultTimeout
  end.

Definition requested : Controller :=
  {| state := Requested; elapsed := 0; signals := []; surfaced := None |}.

(** Modelled from the spec: what the controller does in a state that
    is not final while the entity is still there and not terminal.
    - [Requested -> SignalSent]: the graceful signal is issued at once;
    - [SignalSent -> AwaitingExit]: the escalation timer starts;
    - [AwaitingExit -> Escalated]: the timer has elapsed, and the
      forceful signal is issued; before that the clock advances;
    - [Escalated -> Terminated]: the forceful signal takes effect. *)
Definition proceed (spec : TerminationSpec) (c : Controller) : Controller :=
  match state c with
  | Requested =>
      {| state := SignalSent; elapsed := 0;
         signals := signals c ++ [(0%nat, Graceful)]; surfaced := surfaced c |}
  | SignalSent =>
      {| state := AwaitingExit; elapsed := 0;
         signals := signals c; surfaced := surfaced c |}
  | AwaitingExit =>
      if (effectiveTimeout spec <=? elapsed c)%nat then
        {| state := Escalated; elapsed := elapsed c;
           signals := signals c ++ [(elapsed c, Forceful)];
           surfaced := surfaced c |}
      else
        {| state := AwaitingExit; elapsed := S (elapsed c);
           signals := signals c; surfaced := surfaced c |}
  | Escalated =>
      {| state := Terminated; elapsed := elapsed c;
         signals := signals c; surfaced := surfaced c |}
  | Terminated | Failed => c
  end.

(** Modelled from the spec: one transition of the per-entity state
    machine of [containerutil.Stop], which is not among the sources.
    [Terminated] and [Failed] are final.  In any other state an entity
    that is already terminal leads to [Terminated] without a further
    signal; an entity that disappeared leads to [Failed] with nothing
    to surface (the caller is told success); a runtime error leads to
    [Failed] and is surfaced; otherwise the controller proceeds. *)
Definition step (spec : TerminationSpec) (c : Controller) : Controller :=
  match state c with
  | Terminated | Failed => c
  | _ =>
      match observe (elapsed c) with
      | ReachedTerminal =>
          {| state := Terminated; elapsed := elapsed c;
             signals := signals c; surfaced := surfaced c |}
      | Disappeared =>
          {| state := Failed; elapsed := elapsed c;
             signals := signals c; surfaced := None |}
      | RuntimeFault err =>
          {| state := Failed; elapsed := elapsed c;
             signals := signals c; surfaced := Some err |}
      | NonTerminal => proceed spec c
      end
  end.

Definition final (c : Controller) : bool :=
  match state c with
  | Terminated | Failed => true
  | _ => false
  end.

(** The controller run for at most [fuel] transitions. *)
Fixpoint run (spec : TerminationSpec) (fuel : nat) (c : Controller) : Controller :=
  match fuel with
  | O => c
  | S fuel' => if final c then c else run spec fuel' (step spec c)
  end.

(** The ticks at which the forceful signal was issued. *)
Definition forcefulAt (c : Controller) : list nat :=
  omap (fun s => match s with
                 | (t, Forceful) => Some t
                 | (_, Graceful) => None
                 end) (signals c).
End TerminationController.

(** ** TrustBackend and TransferGate *)

Inductive VerificationLevel : Type :=
| strict | permissive | skip.

(** One policy of the trust policy document. *)
Record TrustPolicy : Type := {
  policyName : string;
  registryScopes : list string;
  level : VerificationLevel;
  trustStores : list string;
  trustedIdentities : list string
}.

Record TrustPolicyDocument : Type := {
  version : string;
  trustPolicies : list TrustPolicy
}.

(** The known backends: one that signs with a named key pair, one that
    resolves identities through a trust store. *)
Inductive BackendName : Type :=
| KeyPairBackend | TrustStoreBackend.

Inductive VerifyResult : Type :=
| Verified
| Unverified (reason : string)
| VerifyError (diagnostic : string).

(** The capabilities of a backend.  Each call stands for one invocation
    of the external attestation tool; [Sign] yields the attestation or
    the tool's diagnostic. *)
Record TrustBackend : Type := {
  Sign : string -> string -> string + string;
  Verify : string -> string -> TrustPolicy -> VerifyResult
}.

(** A [--sign=<backend>] or [--verify=<backend>] directive with the
    backend's key or identity parameter. *)
Record Directive : Type := {
  directiveBackend : BackendName;
  directiveConfig : string
}.

Inductive GateError : Type :=
| AttestationToolError (diagnostic : string)
| TrustDenied (reason : string)
| PolicyNotFound.

(** The registry client, with the operations the gate consumes:
    [push] stores content under a reference and returns its digest,
    [pull] returns the content behind a reference, [publish] attaches
    an attestation to a digest. *)
Record RegistryClient (Registry : Type) : Type := {
  push : Registry -> string -> string -> string * Registry;
  pull : Registry -> string -> string;
  publish : Registry -> string -> string -> Registry
}.
Arguments push {Registry} _ _ _ _.
Arguments pull {Registry} _ _ _.
Arguments publish {Registry} _ _ _ _.

(** The steps of a transfer, in the order they were taken. *)
Inductive GateEvent : Type :=
| PolicyEvaluated (scope : string)
| VerifyInvoked (ref : string)
| Transferred (ref : string)
| Materialized (ref : string)
| Pushed (ref digest : string)
| SignInvoked (digest : string)
| AttestationPublished (digest : string).

Record PullOutcome : Type := {
  pullError : option GateError;
  localImages : gmap string string;
  pullTrace : list GateEvent
}.

Record PushOutcome (Registry : Type) : Type := {
  pushError : option GateError;
  registryAfter : Registry;
  pushTrace : list GateEvent
}.
Arguments pushError {Registry} _.
Arguments registryAfter {Registry} _.
Arguments pushTrace {Registry} _.

(** Modelled from the spec: a scope pattern matches every scope or one
    scope exactly. *)
Definition scopeMatches (pattern scope : string) : bool :=
  String.eqb pattern "*" || String.eqb pattern scope.

(** Modelled from the spec: the policies are tried in document order
    and the first one with a matching scope governs. *)
Definition resolvePolicy (doc : TrustPolicyDocument) (scope : string)
  : option TrustPolicy :=
  List.find (fun p => existsb (fun pat => scopeMatches pat scope) (registryScopes p))
            (trustPolicies doc).

Section TransferGate.
(** [backends] selects the backend a directive names, [client] is the
    registry client and [scopeOf] gives the registry and repository of
    an image reference. *)
Context {Registry : Type} (backends : BackendName -> TrustBackend)
        (client : RegistryClient Registry) (scopeOf : string -> string).


(** Modelled from the spec: the verification stage of a pull, which is
    not among the sources: resolve the policy for the scope of the
    image, fail closed when there is none, and otherwise ask the
    backend. *)
Definition verifyStage (doc : TrustPolicyDocument) (d : Directive) (ref : string)
  : option GateError * list GateEvent :=
  match resolvePolicy doc (scopeOf ref) with
  | None => (Some PolicyNotFound, [PolicyEvaluated (scopeOf ref)])
  | Some p =>
      let trace := [PolicyEvaluated (scopeOf ref); VerifyInvoked ref] in
      match Verify (backends (directiveBackend d)) ref (directiveConfig d) p with
      | Verified => (None, trace)
      | Unverified reason => (Some (TrustDenied reason), trace)
      | VerifyError diagnostic => (Some (AttestationToolError diagnostic), trace)
      end
  end.

(** The transfer proper: the content behind [ref] is fetched and made
    available locally. *)
Definition transfer (reg : Registry) (ref : string) (store : gmap string string)
  : gmap string string * list GateEvent :=
  (<[ref := pull client reg ref]> store, [Transferred ref; Materialized ref]).

(** Modelled from the spec: the pull path of the gate, which is not
    among the sources.  With a verification directive the content is
    materialized only after verification has succeeded; without one the
    policy is not looked at. *)
Definition pullGate (doc : TrustPolicyDocument) (verify : option Directive)
    (reg : Registry) (ref : string) (store : gmap string string) : PullOutcome :=
  match verify with
  | None =>
      let '(store', trace) := transfer reg ref store in
      {| pullError := None; localImages := store'; pullTrace := trace |}
  | Some d =>
      match verifyStage doc d ref with
      | (Some err, trace) =>
          {| pullError := Some err; localImages := store; pullTrace := trace |}
      | (None, trace) =>
          let '(store', trace') := transfer reg ref store in
          {| pullError := None; localImages := store'; pullTrace := trace ++ trace' |}
      end
  end.

(** Modelled from the spec: the push path of the gate, which is not
    among the sources.  The image is pushed first; with a signing
    directive the backend then signs the digest the push returned and
    the attestation is published under that digest.  When signing fails
    the push is reported as failed and the registry is left as the push
    made it. *)
Definition pushGate (sign : option Directive) (reg : Registry)
    (ref content : string) : PushOutcome Registry :=
  let '(digest, reg1) := push client reg ref content in
  match sign with
  | None =>
      {| pushError := None; registryAfter := reg1; pushTrace := [Pushed ref digest] |}
  | Some d =>
      match Sign (backends (directiveBackend d)) digest (directiveConfig d) with
      | inr attestation =>
          {| pushError := None;
             registryAfter := publish client reg1 digest attestation;
             pushTrace := [Pushed ref digest; SignInvoked digest;
                           AttestationPublished digest] |}
      | inl diagnostic =>
          {| pushError := Some (AttestationToolError diagnostic);
             registryAfter := reg1;
             pushTrace := [Pushed ref digest; SignInvoked digest] |}
      end
  end.
End TransferGate.

(** ** What a call of [containerutil.Stop] leaves on the output streams *)

(** The line on the standard output for one call: the request itself,
    when the stop succeeded and the line could be written. *)
Definition stdoutOf {World Container : Type} (rt : Runtime World Container)
    (c : StopCall Container) : list string :=
  match call_result c with
  | None =>
      match WriteOut rt (call_req c +:+ newline) with
      | None => [call_req c +:+ newline]
      | Some _ => []
      end
  | Some _ => []
  end.

(** The line on the standard error for one call: a notice, when the
    container was gone by the time it was stopped. *)
Definition stderrOf {Container : Type} (c : StopCall Container) : list string :=
  match call_result c with
  | Some err =>
      if IsNotFound err then ["No such container: " +:+ call_req c +:+ newline]
      else []
  | None => []
  end.

(** A call that does not abort the batch: the stop succeeded, or the
    container was gone. *)
Definition benign {Container : Type} (c : StopCall Container) : Prop :=
  match call_result c with
  | None => True
  | Some err => IsNotFound err = true
  end.

(** The message of the error for a request that matches several
    containers, and for one that matches none. *)
Definition ambiguousError (req : string) : error :=
  Errorf ("multiple IDs found with provided prefix: " +:+ req).

Definition noSuchContainer (req : string) : error :=
  Errorf ("no such container " +:+ req).

(** ** Sample runtimes *)

(** Three containers, two of which share the ID prefix [ab12]. *)
Definition fleet : list Entity :=
  [ {| ID := "ab12cd34"; Name := Some "web"; Status := running |};
    {| ID := "ab12ef56"; Name := None; Status := running |};
    {| ID := "ff00aa11"; Name := Some "db"; Status := running |} ].

(** Two and three containers whose IDs start with [c]. *)
Definition pairOfC : list Entity :=
  [ {| ID := "ca"; Name := None; Status := running |};
    {| ID := "cb"; Name := None; Status := running |} ].

Definition tripleOfC : list Entity :=
  pairOfC ++ [ {| ID := "cc"; Name := None; Status := paused |} ].

(** A runtime over an entity set in which the containers of [gone]
    vanish before they are stopped and every write succeeds. *)
Definition sampleRuntime (E : list Entity) (gone : list string)
  : Runtime (list Entity) Entity :=
  entityRuntime E (fakeStop gone) (fun _ => None).

(** An in-memory registry: content by reference, attestations under
    the digest they belong to. *)
Definition memoryClient : RegistryClient (gmap string string) :=
  {| push := fun reg ref content => ("sha256:" +:+ content, <[ref := content]> reg);
     pull := fun reg ref => default "" (reg !! ref);
     publish := fun reg digest attestation => <[digest := attestation]> reg |}.

(** A stand-in for an attestation tool that trusts the one key
    [trusted]: it signs with any named key and verifies only against
    the trusted one. *)
Definition fakeBackend (trusted : string) : TrustBackend :=
  {| Sign := fun digest key =>
       if String.eqb key "" then inl "no signing key"
       else inr (key +:+ "@" +:+ digest);
     Verify := fun ref key policy =>
       if String.eqb key trusted then Verified
       else Unverified "no matching signatures" |}.

(** The trust policy of the notation guide: every registry, strict. *)
Definition samplePolicies : TrustPolicyDocument :=
  {| version := "1.0";
     trustPolicies :=
       [ {| policyName := "test-images";
            registryScopes := ["*"];
            level := strict;
            trustStores := ["ca:test.io"];
            trustedIdentities := ["*"] |} ] |}.

(** The number of lines a run has printed, on both streams together. *)
Definition printedLines {Container : Type} (log : Log Container) : nat :=
  length (stdout log) + length (stderr log).

(** A stand-in for [containerutil.Stop] that fails with an error of the
    runtime other than not-found, and leaves the runtime as it is. *)
Definition failingStop (msg : string) (E : list Entity) (e : Entity)
    (timeout : option Z) : option error * list Entity :=
  (Some (ErrRuntime msg), E).

(** A standard output that cannot be written to. *)
Definition brokenPipe (s : string) : option error :=
  Some (ErrRuntime "write /dev/stdout: broken pipe").

(** Two runtimes that differ at most in what [containerutil.Stop] does
    when it is handed a timeout other than [t]. *)
Definition agreeAt {World Container : Type} (t : option Z)
    (rt rt' : Runtime World Container) : Prop :=
  (forall ns addr, NewClient rt ns addr = NewClient rt' ns addr) /\
  (forall w req, Containers rt w req = Containers rt' w req) /\
  (forall s, WriteOut rt s = WriteOut rt' s) /\
  (forall w c, Stop rt w c t = Stop rt' w c t).

(** A stand-in for [containerutil.Stop] that fails with an error whose
    text spells out the timeout it was handed. *)
Definition echoStop (E : list Entity) (e : Entity) (t : option Z)
  : option error * list Entity :=
  (Some (ErrRuntime ("stop with timeout " +:+
                     match t with
                     | None => "nil"
                     | Some d => pretty d
                     end)), E).

(** A duration in clock ticks, one tick per nanosecond; a negative
    duration has elapsed at once. *)
Definition ticksOf (d : Z) : nat := Z.to_nat d.

(** Modelled from the spec: [containerutil.Stop], which is not among
    the sources, as a run of the termination controller on the entity.
    The timeout handed in is the timeout of the controller's input, a
    [nil] timeout is a missing one.  The runtime keeps, per call, the
    signals the controller issued.  The error is the one the controller
    surfaces; an entity that disappeared is reported as not found,
    which the caller in stop.go takes for success. *)
Definition controllerStop (defaultTimeout : nat)
    (observe : Entity -> nat -> Observation)
    (w : list (Entity * list (nat * Signal))) (e : Entity) (t : option Z)
  : option error * list (Entity * list (nat * Signal)) :=
  let spec := {| target := e; timeout := option_map ticksOf t |} in
  let c := run defaultTimeout (observe e) spec
               (effectiveTimeout defaultTimeout spec + 4) requested in
  (match state c, surfaced c with
   | Failed, None => Some (ErrNotFound ("container " +:+ ID e +:+ ": not found"))
   | _, r => r
   end,
   w ++ [(e, signals c)]).

(** The runtime over the entity set [E] whose [containerutil.Stop] is
    the controller. *)
Definition controllerRuntime (defaultTimeout : nat)
    (observe : Entity -> nat -> Observation) (E : list Entity)
    (writeOut : string -> option error)
  : Runtime (list (Entity * list (nat * Signal))) Entity :=
  {| NewClient := fun _ _ => inr [];
     Containers := fun _ req => inr (candidates E req);
     Stop := controllerStop defaultTimeout observe;
     WriteOut := writeOut |}.

(** The escalation invariant of the controller for the timeout [T]:
    no forceful signal has been issued before the controller escalates,
    and from then on at most one, issued at tick [T] or later. *)
Definition escalationInv (T : nat) (c : Controller) : Prop :=
  match state c with
  | Requested | SignalSent | AwaitingExit => forcefulAt c = []
  | Escalated | Terminated | Failed =>
      forcefulAt c = [] \/ exists t, forcefulAt c = [t] /\ (T <= t)%nat
  end.

(** * Properties of the [stop] command *)

Section StopFacts.
Context {World Container : Type} (rt : Runtime World Container).
Implicit Types (st : State (World := World) (Container := Container)).

Lemma OnFound_ambiguous t st found :
  1 < MatchCount found ->
  OnFound rt t st found = (Some (ambiguousError (Req found)), st).
Proof.
  intros Hn. unfold OnFound. destruct st as [w log].
  apply Z.ltb_lt in Hn. now rewrite Hn.
Qed.

Lemma Walk_ambiguous t st req cs :
  Containers rt st.1 req = inr cs ->
  (2 <= length cs)%nat ->
  Walk rt (OnFound rt t) st req = (inl (ambiguousError req), st).
Proof.
  intros Hq Hlen. unfold Walk. rewrite Hq.
  destruct cs as [|c cs'] eqn:Ecs; [simpl in Hlen; lia|].
  cbn [walkFound]. rewrite OnFound_ambiguous; [reflexivity|].
  cbn [MatchCount]. lia.
Qed.

Lemma Walk_none onFound st req :
  Containers rt st.1 req = inr [] ->
  Walk rt onFound st req = (inr 0, st).
Proof. intros Hq. unfold Walk. now rewrite Hq. Qed.

Lemma Walk_single onFound st req c :
  Containers rt st.1 req = inr [c] ->
  Walk rt onFound st req =
  match onFound st {| FoundContainer := c; Req := req; MatchCount := 1 |} with
  | (Some err, st') => (inl err, st')
  | (None, st') => (inr 1, st')
  end.
Proof.
  intros Hq. unfold Walk. rewrite Hq. cbn.
  destruct (onFound _ _) as [[err|] st']; reflexivity.
Qed.

Lemma stopLoop_ambiguous t st req rest cs :
  Containers rt st.1 req = inr cs ->
  (2 <= length cs)%nat ->
  stopLoop rt t st (req :: rest) = (Some (ambiguousError req), st).
Proof.
  intros Hq Hlen. cbn [stopLoop].
  now rewrite (Walk_ambiguous t st req cs Hq Hlen).
Qed.

Lemma stopLoop_none t st req rest :
  Containers rt st.1 req = inr [] ->
  stopLoop rt t st (req :: rest) = (Some (noSuchContainer req), st).
Proof.
  intros Hq. cbn [stopLoop]. now rewrite (Walk_none _ st req Hq).
Qed.

Lemma stopLoop_app t st pre post :
  stopLoop rt t st (pre ++ post) =
  match stopLoop rt t st pre with
  | (Some err, st') => (Some err, st')
  | (None, st') => stopLoop rt t st' post
  end.
Proof.
  revert st. induction pre as [|req pre IH]; intros st; [reflexivity|].
  cbn [app stopLoop].
  destruct (Walk rt (OnFound rt t) st req) as [[err|n] st']; [reflexivity|].
  destruct (n =? 0); [reflexivity|apply IH].
Qed.

(** One call of the callback for a request with a single match. *)
Lemma OnFound_single t w log c req :
  OnFound rt t (w, log) {| FoundContainer := c; Req := req; MatchCount := 1 |} =
  let call := {| call_req := req; call_container := c; call_timeout := t;
                 call_result := (Stop rt w c t).1 |} in
  (match (Stop rt w c t).1 with
   | Some err => if IsNotFound err then None else Some err
   | None => WriteOut rt (req +:+ newline)
   end,
   ((Stop rt w c t).2,
    {| stdout := stdout log ++ stdoutOf rt call;
       stderr := stderr log ++ stderrOf call;
       calls := calls log ++ [call] |})).
Proof.
  unfold OnFound, stdoutOf, stderrOf. cbn.
  destruct (Stop rt w c t) as [[err|] w']; cbn.
  - destruct (IsNotFound err); cbn; now rewrite ?app_nil_r.
  - destruct (WriteOut rt (req +:+ newline)); cbn; now rewrite ?app_nil_r.
Qed.

(** What the loop adds to the log: a list [new] of calls, all made with
    the timeout [t], one per request and in the order of the arguments;
    the output streams grow by the lines of these calls. *)
Lemma stopLoop_log t args : forall st, exists new,
  calls (stopLoop rt t st args).2.2 = calls st.2 ++ new /\
  stdout (stopLoop rt t st args).2.2 = stdout st.2 ++ flat_map (stdoutOf rt) new /\
  stderr (stopLoop rt t st args).2.2 = stderr st.2 ++ flat_map stderrOf new /\
  Forall (fun c => call_timeout c = t) new /\
  map call_req new `prefix_of` args /\
  ((stopLoop rt t st args).1 = None ->
   map call_req new = args /\ Forall benign new).
Proof.
  induction args as [|req rest IH]; intros st.
  { exists []. cbn. rewrite !app_nil_r. repeat split; auto. }
  destruct (Containers rt st.1 req) as [err|cs] eqn:Hq.
  { exists []. cbn [stopLoop]. unfold Walk. rewrite Hq. cbn.
    rewrite !app_nil_r. repeat split; auto using prefix_nil; discriminate. }
  destruct cs as [|c [|c2 cs]].
  - exists []. rewrite (stopLoop_none t st req rest Hq). cbn.
    rewrite !app_nil_r. repeat split; auto using prefix_nil; discriminate.
  - destruct st as [w log]. cbn [stopLoop].
    rewrite (Walk_single _ (w, log) req c Hq), OnFound_single. cbv zeta.
    set (call := {| call_req := req; call_container := c; call_timeout := t;
                    call_result := (Stop rt w c t).1 |}).
    set (st1 := ((Stop rt w c t).2,
                 {| stdout := stdout log ++ stdoutOf rt call;
                    stderr := stderr log ++ stderrOf call;
                    calls := calls log ++ [call] |})).
    destruct (match (Stop rt w c t).1 with
              | Some err => if IsNotFound err then None else Some err
              | None => WriteOut rt (req +:+ newline)
              end) as [err|] eqn:Hres.
    + exists [call]. cbn. rewrite !app_nil_r.
      repeat split; auto using prefix_cons, prefix_nil; discriminate.
    + change (1 =? 0) with false. cbv iota.
      destruct (IH st1) as (new & Hc & Ho & He & Ht & Hp & Hok).
      exists (call :: new). rewrite Hc, Ho, He. subst st1. cbn.
      rewrite <- !app_assoc. repeat split; auto using prefix_cons.
      * destruct Hok as [-> _]; auto.
      * destruct Hok as [_ Hb]; [assumption|]. constructor; [|exact Hb].
        unfold benign. cbn. destruct (Stop rt w c t).1 as [err|]; [|exact I].
        destruct (IsNotFound err); [reflexivity|discriminate].
  - exists []. rewrite (stopLoop_ambiguous t st req rest _ Hq) by (cbn; lia). cbn.
    rewrite !app_nil_r. repeat split; auto using prefix_nil; discriminate.
Qed.

Lemma stopAction_log cmd args :
  stdout (stopAction rt cmd args).2 =
    flat_map (stdoutOf rt) (calls (stopAction rt cmd args).2) /\
  stderr (stopAction rt cmd args).2 =
    flat_map stderrOf (calls (stopAction rt cmd args).2) /\
  Forall (fun c => stopTimeout cmd = inr (call_timeout c))
         (calls (stopAction rt cmd args).2) /\
  map call_req (calls (stopAction rt cmd args).2) `prefix_of` args /\
  ((stopAction rt cmd args).1 = None ->
   map call_req (calls (stopAction rt cmd args).2) = args /\
   Forall benign (calls (stopAction rt cmd args).2)).
Proof.
  unfold stopAction.
  destruct (rootCmdFlags cmd) as [err|opts];
    [cbn; repeat split; auto using prefix_nil; discriminate|].
  destruct (stopTimeout cmd) as [err|t] eqn:Ht;
    [cbn; repeat split; auto using prefix_nil; discriminate|].
  destruct (NewClient rt (Namespace opts) (Address opts)) as [err|w];
    [cbn; repeat split; auto using prefix_nil; discriminate|].
  destruct (stopLoop_log t args (w, emptyLog)) as (new & Hc & Ho & He & Hto & Hp & Hok).
  destruct (stopLoop rt t (w, emptyLog) args) as [r [w' log]].
  cbn in *. subst. repeat split; auto.
  - eapply Forall_impl; [exact Hto|]. intros c ->. reflexivity.
  - apply Hok; assumption.
  - apply Hok; assumption.
Qed.
End StopFacts.

(** * Properties of the resolver *)

Lemma candidates_sound E req e :
  e ∈ candidates E req -> e ∈ E /\ entityMatches req e = true.
Proof.
  unfold candidates.
  destruct (List.find _ E) as [e0|] eqn:Hfind.
  - intros ->%list_elem_of_singleton.
    apply find_some in Hfind as [Hin Heq].
    split; [now apply list_elem_of_In|].
    unfold entityMatches. now rewrite Heq.
  - intros [Hin Hm]%list_elem_of_In%filter_In.
    split; [now apply list_elem_of_In|exact Hm].
Qed.

Lemma candidates_nil E req e :
  candidates E req = [] -> e ∈ E -> entityMatches req e = false.
Proof.
  unfold candidates.
  destruct (List.find _ E) as [e0|]; [discriminate|].
  intros Hnil Hin. destruct (entityMatches req e) eqn:Hm; [|reflexivity].
  assert (In e (List.filter (entityMatches req) E)) as Hf
    by (apply filter_In; split; [now apply list_elem_of_In|exact Hm]).
  rewrite Hnil in Hf. destruct Hf.
Qed.

Lemma candidates_many E req :
  (2 <= length (candidates E req))%nat ->
  candidates E req = List.filter (entityMatches req) E.
Proof.
  unfold candidates. destruct (List.find _ E); [cbn; lia|reflexivity].
Qed.

(** C1.  Resolution has exactly one of three outcomes: not found (no
    entity matches), resolved to one entity of the set that matches the
    request, or ambiguous with a count of at least 2 that is the number
    of matching entities.  When the outcome is ambiguous, the stop
    command returns the error for that request at once, whatever was
    processed before, and leaves the runtime and the log, and with it
    the list of stop calls, untouched. *)
Theorem resolve_trichotomy_and_ambiguous_stop (E : list Entity) (req : string) :
  ((Resolve E req = NotFound /\ forall e, e ∈ E -> entityMatches req e = false)
   \/ (exists e, Resolve E req = Resolved e req /\ candidates E req = [e] /\
                 e ∈ E /\ entityMatches req e = true)
   \/ (exists n, Resolve E req = Ambiguous n req /\ 2 <= n /\
                 n = Z.of_nat (length (List.filter (entityMatches req) E))))
  /\ (forall n, Resolve E req = Ambiguous n req ->
      forall E0 stop writeOut t log rest,
        stopLoop (entityRuntime E0 stop writeOut) t (E, log) (req :: rest)
        = (Some (ambiguousError req), (E, log)))
  /\ (forall n, Resolve E req = Ambiguous n req ->
      forall stop writeOut cmd opts t rest,
        rootCmdFlags cmd = inr opts -> stopTimeout cmd = inr t ->
        stopAction (entityRuntime E stop writeOut) cmd (req :: rest)
        = (Some (ambiguousError req), emptyLog)).
Proof.
  assert (forall n, Resolve E req = Ambiguous n req ->
                    (2 <= length (candidates E req))%nat) as Hamb.
  { unfold Resolve. intros n.
    destruct (candidates E req) as [|e [|e2 cs]]; [discriminate..|cbn; lia]. }
  split; [|split].
  - unfold Resolve. destruct (candidates E req) as [|e [|e2 cs]] eqn:Hc.
    + left. split; [reflexivity|]. intros e. now apply candidates_nil.
    + right; left. exists e. repeat split; try reflexivity;
        apply (candidates_sound E req e); rewrite Hc; apply list_elem_of_here.
    + right; right. eexists. split; [reflexivity|].
      split; [cbn [length]; lia|].
      rewrite <- candidates_many by (rewrite Hc; cbn; lia). now rewrite Hc.
  - intros n Hn E0 stop writeOut t log rest.
    apply (stopLoop_ambiguous _ t (E, log) req rest (candidates E req)); [reflexivity|eauto].
  - intros n Hn stop writeOut cmd opts t rest Hopts Ht.
    unfold stopAction. rewrite Hopts, Ht. cbn [NewClient entityRuntime].
    now rewrite (stopLoop_ambiguous _ t (E, emptyLog) req rest (candidates E req))
      by (reflexivity || eauto).
Qed.

Lemma resolve_trichotomy_and_ambiguous_stop_witness :
  Resolve fleet "ab12" = Ambiguous 2 "ab12" /\
  stopAction (sampleRuntime fleet []) plainCommand ["ab12"; "db"]
  = (Some (Errorf "multiple IDs found with provided prefix: ab12"), emptyLog).
Proof.
  split; [reflexivity|].
  destruct (resolve_trichotomy_and_ambiguous_stop fleet "ab12") as (_ & _ & H).
  exact (H 2 eq_refl (fakeStop []) (fun _ => None) plainCommand _ None ["db"]
           eq_refl eq_refl).
Defined.

(** * Properties of [stopAction] *)

(** C2, as the code has it.  For a request that matches two or more
    containers the command returns an error whose text is the fixed
    phrase followed by the request string; the process exits nonzero,
    and neither the runtime nor the log has changed. *)
Theorem ambiguous_stop_reports_request {World Container : Type}
    (rt : Runtime World Container) (t : option Z) (st : State)
    (req : string) (rest : list string) (cs : list Container) :
  Containers rt st.1 req = inr cs ->
  (2 <= length cs)%nat ->
  exists err,
    (stopLoop rt t st (req :: rest)).1 = Some err /\
    Error err = "multiple IDs found with provided prefix: " +:+ req /\
    exitStatus (stopLoop rt t st (req :: rest)).1 <> 0 /\
    (stopLoop rt t st (req :: rest)).2 = st.
Proof.
  intros Hq Hlen. rewrite (stopLoop_ambiguous rt t st req rest cs Hq Hlen).
  exists (ambiguousError req). cbn. repeat split. discriminate.
Qed.

Lemma ambiguous_stop_reports_request_witness :
  exists err,
    (stopLoop (sampleRuntime tripleOfC []) None (tripleOfC, emptyLog) ["c"; "cb"]).1
    = Some err /\
    Error err = "multiple IDs found with provided prefix: c" /\
    exitStatus
      (stopLoop (sampleRuntime tripleOfC []) None (tripleOfC, emptyLog) ["c"; "cb"]).1
    <> 0 /\
    (stopLoop (sampleRuntime tripleOfC []) None (tripleOfC, emptyLog) ["c"; "cb"]).2
    = (tripleOfC, emptyLog).
Proof.
  apply (ambiguous_stop_reports_request (sampleRuntime tripleOfC []) None
           (tripleOfC, emptyLog) "c" ["cb"] tripleOfC).
  - reflexivity.
  - cbn. lia.
Defined.

(** C2, as stated, fails: the request [c] matches two containers in one
    runtime and three in another, the error text is the same in both,
    and neither count occurs in it. *)
Lemma ambiguous_error_omits_match_count :
  length (candidates pairOfC "c") = 2%nat /\
  length (candidates tripleOfC "c") = 3%nat /\
  (stopAction (sampleRuntime pairOfC []) plainCommand ["c"]).1
  = Some (Errorf "multiple IDs found with provided prefix: c") /\
  (stopAction (sampleRuntime tripleOfC []) plainCommand ["c"]).1
  = Some (Errorf "multiple IDs found with provided prefix: c") /\
  occursIn (pretty 2%nat) "multiple IDs found with provided prefix: c" = false /\
  occursIn (pretty 3%nat) "multiple IDs found with provided prefix: c" = false.
Proof. repeat split; vm_compute; reflexivity. Qed.

(** C3, as the code has it.  A request without a match ends the batch:
    the requests before it have run, the command returns the error
    [no such container REQ], and the requests after it are not
    processed, so the state is the one the earlier requests left. *)
Theorem not_found_ends_batch {World Container : Type}
    (rt : Runtime World Container) (t : option Z) (st st1 : State)
    (pre : list string) (req : string) (rest : list string) :
  stopLoop rt t st pre = (None, st1) ->
  Containers rt st1.1 req = inr [] ->
  stopLoop rt t st (pre ++ req :: rest) = (Some (noSuchContainer req), st1) /\
  exitStatus (stopLoop rt t st (pre ++ req :: rest)).1 <> 0.
Proof.
  intros Hpre Hq. rewrite stopLoop_app, Hpre, (stopLoop_none rt t st1 req rest Hq).
  split; [reflexivity|discriminate].
Qed.

Lemma not_found_ends_batch_witness :
  stopLoop (sampleRuntime fleet []) None (fleet, emptyLog) (["web"] ++ "nosuch" :: ["db"])
  = (Some (Errorf "no such container nosuch"),
     ((fakeStop [] fleet {| ID := "ab12cd34"; Name := Some "web"; Status := running |}
         None).2,
      {| stdout := ["web" +:+ newline]; stderr := [];
         calls := [ {| call_req := "web";
                       call_container :=
                         {| ID := "ab12cd34"; Name := Some "web"; Status := running |};
                       call_timeout := None;
                       call_result := None |} ] |})) /\
  exitStatus
    (stopLoop (sampleRuntime fleet []) None (fleet, emptyLog)
       (["web"] ++ "nosuch" :: ["db"])).1 <> 0.
Proof.
  apply (not_found_ends_batch (sampleRuntime fleet []) None (fleet, emptyLog)).
  - reflexivity.
  - reflexivity.
Defined.

(** C3, as stated, fails: [db] names a container of the fleet and is
    stopped when asked for alone, but after the unknown [nosuch] it is
    never looked at: no stop call is made and nothing is printed. *)
Lemma not_found_skips_remaining_requests :
  stopAction (sampleRuntime fleet []) plainCommand ["nosuch"; "db"]
  = (Some (Errorf "no such container nosuch"), emptyLog) /\
  Resolve fleet "db"
  = Resolved {| ID := "ff00aa11"; Name := Some "db"; Status := running |} "db" /\
  map call_req (calls (stopAction (sampleRuntime fleet []) plainCommand ["db"]).2)
  = ["db"].
Proof. repeat split; vm_compute; reflexivity. Qed.

(** C4.  When the request resolves to one container and the stop call
    on it fails with a not-found error, the callback reports success:
    a notice goes to the standard error, the walk counts one match, the
    loop goes on with the remaining requests, and a command with this
    single request returns no error. *)
Theorem vanished_container_is_success {World Container : Type}
    (rt : Runtime World Container) (t : option Z) (w w' : World)
    (log : Log Container) (req : string) (c : Container)
    (rest : list string) (err : error) :
  Containers rt w req = inr [c] ->
  Stop rt w c t = (Some err, w') ->
  IsNotFound err = true ->
  let st' := (w', {| stdout := stdout log;
                     stderr := stderr log ++ ["No such container: " +:+ req +:+ newline];
                     calls := calls log ++
                              [ {| call_req := req; call_container := c;
                                   call_timeout := t; call_result := Some err |} ] |}) in
  OnFound rt t (w, log) {| FoundContainer := c; Req := req; MatchCount := 1 |}
  = (None, st') /\
  Walk rt (OnFound rt t) (w, log) req = (inr 1, st') /\
  stopLoop rt t (w, log) (req :: rest) = stopLoop rt t st' rest /\
  stopLoop rt t (w, log) [req] = (None, st') /\
  exitStatus (stopLoop rt t (w, log) [req]).1 = 0.
Proof.
  intros Hq Hstop Hnf st'.
  assert (OnFound rt t (w, log) {| FoundContainer := c; Req := req; MatchCount := 1 |}
          = (None, st')) as Hon.
  { unfold OnFound. cbn. rewrite Hstop, Hnf. reflexivity. }
  assert (Walk rt (OnFound rt t) (w, log) req = (inr 1, st')) as Hwalk.
  { rewrite (Walk_single rt _ (w, log) req c Hq), Hon. reflexivity. }
  assert (forall l, stopLoop rt t (w, log) (req :: l) = stopLoop rt t st' l) as Hloop.
  { intros l. cbn [stopLoop]. rewrite Hwalk. reflexivity. }
  split; [exact Hon|]. split; [exact Hwalk|]. split; [apply Hloop|].
  rewrite Hloop. split; reflexivity.
Qed.

Lemma vanished_container_is_success_witness :
  stopLoop (sampleRuntime fleet ["ff00aa11"]) None (fleet, emptyLog) ["db"]
  = (None,
     ([ {| ID := "ab12cd34"; Name := Some "web"; Status := running |};
        {| ID := "ab12ef56"; Name := None; Status := running |} ],
      {| stdout := [];
         stderr := ["No such container: db" +:+ newline];
         calls := [ {| call_req := "db";
                       call_container :=
                         {| ID := "ff00aa11"; Name := Some "db"; Status := running |};
                       call_timeout := None;
                       call_result :=
                         Some (ErrNotFound "container ff00aa11: not found") |} ] |})).
Proof.
  apply (vanished_container_is_success (sampleRuntime fleet ["ff00aa11"]) None
           fleet _ emptyLog "db" _ [] _); reflexivity.
Defined.

(** C10.  The standard output of the command holds, for every stop call
    that succeeded, one line with the request string the call was made
    for, and nothing else; the calls follow the order of the arguments,
    one per request processed.  A call that failed because the
    container was gone leaves no line on the standard output and a
    notice on the standard error, and it does not make the command
    fail: when the command returns no error, every argument had its
    call and every call either succeeded or found the container gone. *)
Theorem stop_prints_request_per_stopped_container {World Container : Type}
    (rt : Runtime World Container) (cmd : Command) (args : list string) :
  stdout (stopAction rt cmd args).2
  = flat_map (stdoutOf rt) (calls (stopAction rt cmd args).2) /\
  stderr (stopAction rt cmd args).2
  = flat_map stderrOf (calls (stopAction rt cmd args).2) /\
  map call_req (calls (stopAction rt cmd args).2) `prefix_of` args /\
  ((stopAction rt cmd args).1 = None ->
   map call_req (calls (stopAction rt cmd args).2) = args /\
   Forall benign (calls (stopAction rt cmd args).2)) /\
  (forall c : StopCall Container,
      (call_result c = None -> WriteOut rt (call_req c +:+ newline) = None ->
       stdoutOf rt c = [call_req c +:+ newline] /\ stderrOf c = []) /\
      (forall err, call_result c = Some err -> IsNotFound err = true ->
       stdoutOf rt c = [] /\
       stderrOf c = ["No such container: " +:+ call_req c +:+ newline] /\
       benign c)).
Proof.
  destruct (stopAction_log rt cmd args) as (Ho & He & _ & Hp & Hok).
  split; [exact Ho|]. split; [exact He|]. split; [exact Hp|]. split; [exact Hok|].
  intros c. unfold stdoutOf, stderrOf, benign. split.
  - intros -> ->. split; reflexivity.
  - intros err -> ->. repeat split.
Qed.

Lemma stop_prints_request_per_stopped_container_witness :
  stopAction (sampleRuntime fleet ["ab12ef56"]) plainCommand ["web"; "ab12e"; "ff00aa11"]
  = (None,
     {| stdout := ["web" +:+ newline; "ff00aa11" +:+ newline];
        stderr := ["No such container: ab12e" +:+ newline];
        calls := calls (stopAction (sampleRuntime fleet ["ab12ef56"]) plainCommand
                          ["web"; "ab12e"; "ff00aa11"]).2 |}) /\
  map call_req
      (calls (stopAction (sampleRuntime fleet ["ab12ef56"]) plainCommand
                ["web"; "ab12e"; "ff00aa11"]).2)
  = ["web"; "ab12e"; "ff00aa11"] /\
  map (fun c => ID (call_container c))
      (calls (stopAction (sampleRuntime fleet ["ab12ef56"]) plainCommand
                ["web"; "ab12e"; "ff00aa11"]).2)
  = ["ab12cd34"; "ab12ef56"; "ff00aa11"].
Proof.
  split; [reflexivity|]. split; [|reflexivity].
  destruct (stop_prints_request_per_stopped_container
              (sampleRuntime fleet ["ab12ef56"]) plainCommand
              ["web"; "ab12e"; "ff00aa11"]) as (_ & _ & _ & H & _).
  apply H. reflexivity.
Defined.

(** * Properties of the termination controller *)

Section ControllerFacts.
Context (defaultTimeout : nat) (observe : nat -> Observation) (spec : TerminationSpec).

Let T := effectiveTimeout defaultTimeout spec.

Lemma run_final fuel c :
  final c = true -> run defaultTimeout observe spec fuel c = c.
Proof. intros Hf. destruct fuel; cbn; [reflexivity|now rewrite Hf]. Qed.

Lemma run_step fuel c :
  final c = false ->
  run defaultTimeout observe spec (S fuel) c
  = run defaultTimeout observe spec fuel (step defaultTimeout observe spec c).
Proof. intros Hf. cbn [run]. now rewrite Hf. Qed.

Lemma step_proceed c :
  final c = false ->
  observe (elapsed c) = NonTerminal ->
  step defaultTimeout observe spec c = proceed defaultTimeout spec c.
Proof.
  unfold step, final. intros Hf Hobs.
  destruct (state c); try discriminate; now rewrite Hobs.
Qed.

Lemma proceed_escalationInv c :
  escalationInv T c -> escalationInv T (proceed defaultTimeout spec c).
Proof.
  destruct c as [s e sigs sf]. unfold escalationInv, proceed, forcefulAt. cbn.
  destruct s; cbn; auto.
  - intros H. now rewrite omap_app, H.
  - intros H. fold T. destruct (T <=? e)%nat eqn:Hle; cbn; auto.
    right. exists e. rewrite omap_app, H. split; [reflexivity|].
    now apply Nat.leb_le.
Qed.

Lemma step_escalationInv c :
  escalationInv T c -> escalationInv T (step defaultTimeout observe spec c).
Proof.
  intros Hc. unfold step.
  destruct (state c) eqn:Hs; try exact Hc;
    (destruct (observe (elapsed c));
     [ now apply proceed_escalationInv
     | revert Hc; unfold escalationInv, forcefulAt; rewrite Hs; cbn; auto .. ]).
Qed.

Lemma run_escalationInv fuel : forall c,
  escalationInv T c -> escalationInv T (run defaultTimeout observe spec fuel c).
Proof.
  induction fuel as [|fuel IH]; intros c Hc; cbn; [exact Hc|].
  destruct (final c); [exact Hc|]. apply IH, step_escalationInv, Hc.
Qed.

(** Safety: whatever the entity does, a run from [requested] holds at
    most one forceful signal, issued at tick [T] or later. *)
Lemma run_forceful_safe fuel :
  (length (forcefulAt (run defaultTimeout observe spec fuel requested)) <= 1)%nat /\
  Forall (fun t => (T <= t)%nat)
         (forcefulAt (run defaultTimeout observe spec fuel requested)).
Proof.
  pose proof (run_escalationInv fuel requested eq_refl) as Hinv.
  unfold escalationInv in Hinv.
  assert (forcefulAt (run defaultTimeout observe spec fuel requested) = [] \/
          exists t, forcefulAt (run defaultTimeout observe spec fuel requested) = [t] /\
                    (T <= t)%nat) as [->| (t & -> & Ht)].
  { destruct (state (run defaultTimeout observe spec fuel requested)); auto. }
  - split; [cbn; lia|constructor].
  - split; [cbn; lia|]. repeat constructor. exact Ht.
Qed.

Lemma awaiting_escalates k : forall c fuel,
  state c = AwaitingExit ->
  (elapsed c + k = T)%nat ->
  (forall t, (t <= T)%nat -> observe t = NonTerminal) ->
  (k + 2 <= fuel)%nat ->
  run defaultTimeout observe spec fuel c
  = {| state := Terminated; elapsed := T;
       signals := signals c ++ [(T, Forceful)]; surfaced := surfaced c |}.
Proof.
  induction k as [|k IH]; intros [s e sigs sf] fuel Hs He Hobs Hfuel;
    cbn in Hs, He; subst s.
  - destruct fuel as [|[|fuel]]; [lia..|].
    assert (e = T) as -> by lia.
    rewrite run_step, step_proceed by (cbn; auto with lia).
    unfold proceed. cbn [state elapsed signals surfaced]. fold T.
    rewrite Nat.leb_refl.
    rewrite run_step, step_proceed by (cbn; auto with lia).
    now rewrite run_final.
  - destruct fuel as [|fuel]; [lia|].
    rewrite run_step, step_proceed by (cbn; auto with lia).
    unfold proceed. cbn [state elapsed signals surfaced]. fold T.
    replace (T <=? e)%nat with false by (symmetry; apply Nat.leb_gt; lia).
    rewrite IH; cbn; trivial; lia.
Qed.

(** Liveness: an entity that stays non-terminal up to the timeout is
    terminated by force at tick [T]. *)
Lemma requested_escalates fuel :
  (forall t, (t <= T)%nat -> observe t = NonTerminal) ->
  (T + 4 <= fuel)%nat ->
  run defaultTimeout observe spec fuel requested
  = {| state := Terminated; elapsed := T;
       signals := [(0%nat, Graceful); (T, Forceful)]; surfaced := None |}.
Proof.
  intros Hobs Hfuel. destruct fuel as [|[|fuel]]; [lia..|].
  rewrite run_step, step_proceed by (cbn; auto with lia).
  rewrite run_step, step_proceed by (cbn; auto with lia).
  rewrite (awaiting_escalates T); cbn; trivial; lia.
Qed.
End ControllerFacts.

(** C9.  In every run of the controller at most one forceful signal is
    issued, and never before the timeout has elapsed.  When the entity
    stays non-terminal up to the timeout, the run ends in [Terminated]
    after exactly one forceful signal, issued at the tick the timeout
    elapses, given fuel for the timeout and four more transitions. *)
Theorem escalation_once_not_before_timeout
    (defaultTimeout : nat) (observe : nat -> Observation) (spec : TerminationSpec) :
  (forall fuel,
      (length (forcefulAt (run defaultTimeout observe spec fuel requested)) <= 1)%nat /\
      Forall (fun t => (effectiveTimeout defaultTimeout spec <= t)%nat)
             (forcefulAt (run defaultTimeout observe spec fuel requested))) /\
  ((forall t, (t <= effectiveTimeout defaultTimeout spec)%nat ->
              observe t = NonTerminal) ->
   forall fuel, (effectiveTimeout defaultTimeout spec + 4 <= fuel)%nat ->
     state (run defaultTimeout observe spec fuel requested) = Terminated /\
     forcefulAt (run defaultTimeout observe spec fuel requested)
     = [effectiveTimeout defaultTimeout spec] /\
     surfaced (run defaultTimeout observe spec fuel requested) = None).
Proof.
  split.
  - intros fuel. apply run_forceful_safe.
  - intros Hobs fuel Hfuel.
    rewrite (requested_escalates defaultTimeout observe spec fuel Hobs Hfuel).
    repeat split.
Qed.

Lemma escalation_once_not_before_timeout_witness :
  state (run 10 (fun _ => NonTerminal)
             {| target := {| ID := "ab12cd34"; Name := None; Status := running |};
                timeout := Some 3%nat |} 7 requested) = Terminated /\
  forcefulAt (run 10 (fun _ => NonTerminal)
                  {| target := {| ID := "ab12cd34"; Name := None; Status := running |};
                     timeout := Some 3%nat |} 7 requested) = [3%nat] /\
  surfaced (run 10 (fun _ => NonTerminal)
                {| target := {| ID := "ab12cd34"; Name := None; Status := running |};
                   timeout := Some 3%nat |} 7 requested) = None.
Proof.
  apply (escalation_once_not_before_timeout 10 (fun _ => NonTerminal)
           {| target := {| ID := "ab12cd34"; Name := None; Status := running |};
              timeout := Some 3%nat |}).
  - reflexivity.
  - cbn. lia.
Defined.

(** * Properties of the transfer gate *)

(** Membership of an event in a trace that is a list given in full. *)
Ltac trace_mem :=
  cbn; unfold not; rewrite ?elem_of_cons, ?elem_of_nil;
  intuition (discriminate || congruence).



(** C7.  A pull without a verification directive does not depend on
    the trust policy document, on the backends or on the scope of the
    image: it is the plain transfer.  Its trace holds neither a policy
    evaluation nor a verification. *)
Theorem pull_without_directive_bypasses_policy {Registry : Type}
    (backends backends' : BackendName -> TrustBackend)
    (client : RegistryClient Registry) (scopeOf scopeOf' : string -> string)
    (doc doc' : TrustPolicyDocument) (reg : Registry) (ref : string)
    (store : gmap string string) :
  pullGate backends client scopeOf doc None reg ref store
  = pullGate backends' client scopeOf' doc' None reg ref store /\
  localImages (pullGate backends client scopeOf doc None reg ref store)
  = (transfer client reg ref store).1 /\
  pullError (pullGate backends client scopeOf doc None reg ref store) = None /\
  Forall (fun ev => forall x, ev <> PolicyEvaluated x /\ ev <> VerifyInvoked x)
         (pullTrace (pullGate backends client scopeOf doc None reg ref store)).
Proof.
  unfold pullGate, transfer. cbn.
  split; [reflexivity|]. split; [reflexivity|]. split; [reflexivity|].
  repeat constructor; discriminate.
Qed.

Lemma pull_without_directive_bypasses_policy_witness :
  pullGate (fun _ => fakeBackend "cosign.pub") memoryClient id samplePolicies None
    {[ "10.0.0.2/app:3.13" := "layers" ]} "10.0.0.2/app:3.13" ∅
  = pullGate (fun _ => fakeBackend "notation.crt") memoryClient (fun _ => "")
      {| version := "1.0"; trustPolicies := [] |} None
      {[ "10.0.0.2/app:3.13" := "layers" ]} "10.0.0.2/app:3.13" ∅ /\
  pullError
    (pullGate (fun _ => fakeBackend "cosign.pub") memoryClient id samplePolicies None
       {[ "10.0.0.2/app:3.13" := "layers" ]} "10.0.0.2/app:3.13" ∅) = None.
Proof.
  destruct (pull_without_directive_bypasses_policy
              (fun _ => fakeBackend "cosign.pub") (fun _ => fakeBackend "notation.crt")
              memoryClient id (fun _ => "") samplePolicies
              {| version := "1.0"; trustPolicies := [] |}
              {[ "10.0.0.2/app:3.13" := "layers" ]} "10.0.0.2/app:3.13" ∅)
    as (H1 & _ & H2 & _).
  split; [exact H1|exact H2].
Defined.

(** C8.  In a push with a signing directive every sign step comes after
    the push step and is for the digest the push returned.  When
    signing fails the push is reported as failed, no attestation is
    published and the registry is as the push left it; when signing
    succeeds the attestation is published under that digest. *)
Theorem sign_follows_push_without_rollback {Registry : Type}
    (backends : BackendName -> TrustBackend) (client : RegistryClient Registry)
    (d : Directive) (reg : Registry) (ref content : string) :
  let pushed := push client reg ref content in
  let out := pushGate backends client (Some d) reg ref content in
  (forall i digest, pushTrace out !! i = Some (SignInvoked digest) ->
     digest = pushed.1 /\
     exists j, (j < i)%nat /\ pushTrace out !! j = Some (Pushed ref pushed.1)) /\
  (forall diagnostic,
     Sign (backends (directiveBackend d)) pushed.1 (directiveConfig d) = inl diagnostic ->
     pushError out = Some (AttestationToolError diagnostic) /\
     exitStatus (pushError out) <> 0 /\
     registryAfter out = pushed.2 /\
     AttestationPublished pushed.1 ∉ pushTrace out) /\
  (forall attestation,
     Sign (backends (directiveBackend d)) pushed.1 (directiveConfig d) = inr attestation ->
     pushError out = None /\
     registryAfter out = publish client pushed.2 pushed.1 attestation).
Proof.
  unfold pushGate. cbv zeta.
  destruct (push client reg ref content) as [digest reg1]. cbn [fst snd].
  split; [|split].
  - intros i dg Hi.
    assert (forall tail, (Pushed ref digest :: SignInvoked digest :: tail) !! i
                         = Some (SignInvoked dg) ->
                         Forall (fun ev => forall x, ev <> SignInvoked x) tail ->
                         dg = digest /\ exists j, (j < i)%nat /\
                           (Pushed ref digest :: SignInvoked digest :: tail) !! j
                           = Some (Pushed ref digest)) as Hgen.
    { intros tail Hl Htail. destruct i as [|[|i]]; cbn in Hl.
      - discriminate.
      - injection Hl as ->. split; [reflexivity|]. exists 0%nat. split; [lia|reflexivity].
      - apply list_elem_of_lookup_2 in Hl.
        rewrite Forall_forall in Htail. now destruct (Htail _ Hl dg). }
    destruct (Sign (backends (directiveBackend d)) digest (directiveConfig d));
      cbn in Hi |- *; eapply Hgen; eauto; repeat constructor; discriminate.
  - intros diagnostic ->. cbn. repeat split; [discriminate|]. trace_mem.
  - intros attestation ->. cbn. split; reflexivity.
Qed.

Lemma sign_follows_push_without_rollback_witness :
  pushError (pushGate (fun _ => fakeBackend "cosign.pub") memoryClient
               (Some {| directiveBackend := KeyPairBackend; directiveConfig := "" |})
               ∅ "127.0.0.1:5000/app" "layers")
  = Some (AttestationToolError "no signing key") /\
  exitStatus
    (pushError (pushGate (fun _ => fakeBackend "cosign.pub") memoryClient
                  (Some {| directiveBackend := KeyPairBackend; directiveConfig := "" |})
                  ∅ "127.0.0.1:5000/app" "layers")) <> 0 /\
  registryAfter (pushGate (fun _ => fakeBackend "cosign.pub") memoryClient
                   (Some {| directiveBackend := KeyPairBackend; directiveConfig := "" |})
                   ∅ "127.0.0.1:5000/app" "layers")
  = (push memoryClient ∅ "127.0.0.1:5000/app" "layers").2 /\
  AttestationPublished (push memoryClient ∅ "127.0.0.1:5000/app" "layers").1
  ∉ pushTrace (pushGate (fun _ => fakeBackend "cosign.pub") memoryClient
                 (Some {| directiveBackend := KeyPairBackend; directiveConfig := "" |})
                 ∅ "127.0.0.1:5000/app" "layers").
Proof.
  destruct (sign_follows_push_without_rollback
              (fun _ => fakeBackend "cosign.pub") memoryClient
              {| directiveBackend := KeyPairBackend; directiveConfig := "" |}
              ∅ "127.0.0.1:5000/app" "layers") as (_ & H & _).
  apply (H "no signing key"). reflexivity.
Defined.

(** * Further properties of [stopAction] *)

Section StopBatchFacts.
Context {World Container : Type} (rt : Runtime World Container).
Implicit Types (st : State (World := World) (Container := Container)).

(** The lines printed by the loop: one per argument when it succeeds,
    fewer when it fails. *)
Lemma stopLoop_lines t args : forall st,
  match (stopLoop rt t st args).1 with
  | None =>
      printedLines (stopLoop rt t st args).2.2 = (printedLines st.2 + length args)%nat
  | Some _ =>
      (printedLines (stopLoop rt t st args).2.2 < printedLines st.2 + length args)%nat
  end.
Proof.
  induction args as [|req rest IH]; intros st; [cbn; lia|].
  destruct (Containers rt st.1 req) as [err|cs] eqn:Hq.
  { cbn [stopLoop]. unfold Walk. rewrite Hq. cbn. lia. }
  destruct cs as [|c [|c2 cs]].
  - rewrite (stopLoop_none rt t st req rest Hq). cbn. lia.
  - destruct st as [w log]. cbn [stopLoop].
    rewrite (Walk_single rt _ (w, log) req c Hq), OnFound_single. cbv zeta.
    unfold stdoutOf, stderrOf. cbn [call_result call_req].
    destruct (Stop rt w c t) as [[err|] w']; cbn [fst snd].
    + destruct (IsNotFound err).
      * change (1 =? 0) with false. cbv iota.
        match goal with |- context [stopLoop rt t ?s rest] => specialize (IH s) end.
        destruct (stopLoop rt t _ rest).1; revert IH;
          unfold printedLines; cbn; rewrite !length_app; cbn; lia.
      * unfold printedLines. cbn. rewrite !length_app. cbn. lia.
    + destruct (WriteOut rt (req +:+ newline)).
      * unfold printedLines. cbn. rewrite !length_app. cbn. lia.
      * change (1 =? 0) with false. cbv iota.
        match goal with |- context [stopLoop rt t ?s rest] => specialize (IH s) end.
        destruct (stopLoop rt t _ rest).1; revert IH;
          unfold printedLines; cbn; rewrite !length_app; cbn; lia.
  - rewrite (stopLoop_ambiguous rt t st req rest _ Hq) by (cbn; lia). cbn. lia.
Qed.

(** Every call the loop adds was made on the one container the runtime
    returned for the request of the call, in the runtime as it was
    then, and the recorded result is that of the call. *)
Lemma stopLoop_matched t args : forall st, exists new,
  calls (stopLoop rt t st args).2.2 = calls st.2 ++ new /\
  Forall (fun c => exists w,
              Containers rt w (call_req c) = inr [call_container c] /\
              call_result c = (Stop rt w (call_container c) t).1) new.
Proof.
  induction args as [|req rest IH]; intros st.
  { exists []. cbn. now rewrite app_nil_r. }
  destruct (Containers rt st.1 req) as [err|cs] eqn:Hq.
  { exists []. cbn [stopLoop]. unfold Walk. rewrite Hq. cbn. now rewrite app_nil_r. }
  destruct cs as [|c [|c2 cs]].
  - exists []. rewrite (stopLoop_none rt t st req rest Hq). cbn. now rewrite app_nil_r.
  - destruct st as [w log]. cbn [stopLoop].
    rewrite (Walk_single rt _ (w, log) req c Hq), OnFound_single. cbv zeta.
    set (call := {| call_req := req; call_container := c; call_timeout := t;
                    call_result := (Stop rt w c t).1 |}).
    assert (exists w0, Containers rt w0 (call_req call) = inr [call_container call] /\
                       call_result call = (Stop rt w0 (call_container call) t).1)
      as Hcall by (exists w; split; [exact Hq|reflexivity]).
    destruct (match (Stop rt w c t).1 with
              | Some err => if IsNotFound err then None else Some err
              | None => WriteOut rt (req +:+ newline)
              end) as [err|].
    + exists [call]. cbn. split; [reflexivity|]. now constructor.
    + change (1 =? 0) with false. cbv iota.
      match goal with |- context [stopLoop rt t ?s rest] =>
        destruct (IH s) as (new & Hc & Hall) end.
      exists (call :: new). rewrite Hc. cbn. rewrite <- app_assoc.
      split; [reflexivity|]. now constructor.
  - exists []. rewrite (stopLoop_ambiguous rt t st req rest _ Hq) by (cbn; lia).
    cbn. now rewrite app_nil_r.
Qed.
End StopBatchFacts.

(** * The timeout of a stop *)

Section StopTimeoutFacts.
Context {World Container : Type} (rt rt' : Runtime World Container).

(** The callback hands [containerutil.Stop] the timeout [t] and no
    other: it is the same in two runtimes that agree at [t]. *)
Lemma OnFound_agree t st found :
  agreeAt t rt rt' -> OnFound rt t st found = OnFound rt' t st found.
Proof.
  intros (_ & _ & Hw & Hs). unfold OnFound. destruct st as [w log].
  destruct (1 <? MatchCount found); [reflexivity|].
  rewrite Hs. destruct (Stop rt' w (FoundContainer found) t) as [[err|] w'];
    [reflexivity|].
  now rewrite Hw.
Qed.

Lemma walkFound_ext
    (onFound onFound' : State -> Found Container -> option error * State)
    req n cs :
  (forall st found, onFound st found = onFound' st found) ->
  forall st : State (World := World),
    walkFound onFound req n cs st = walkFound onFound' req n cs st.
Proof.
  intros Hext. induction cs as [|c cs IH]; intros st; [reflexivity|].
  cbn [walkFound]. rewrite Hext.
  destruct (onFound' st _) as [[err|] st']; [reflexivity|apply IH].
Qed.

Lemma stopLoop_agree t args :
  agreeAt t rt rt' -> forall st, stopLoop rt t st args = stopLoop rt' t st args.
Proof.
  intros Hag. pose proof Hag as (_ & Hq & _ & _).
  induction args as [|req rest IH]; intros st; [reflexivity|].
  cbn [stopLoop]. unfold Walk. rewrite Hq.
  destruct (Containers rt' st.1 req) as [err|cs]; [reflexivity|].
  rewrite (walkFound_ext (OnFound rt t) (OnFound rt' t))
    by (intros; now apply OnFound_agree).
  destruct (walkFound (OnFound rt' t) req _ cs st) as [[err|] st']; [reflexivity|].
  destruct (Z.of_nat (length cs) =? 0); [reflexivity|apply IH].
Qed.

Lemma stopAction_agree cmd args t :
  stopTimeout cmd = inr t ->
  agreeAt t rt rt' ->
  stopAction rt cmd args = stopAction rt' cmd args.
Proof.
  intros Ht Hag. pose proof Hag as (Hc & _ & _ & _).
  unfold stopAction. destruct (rootCmdFlags cmd) as [err|opts]; [reflexivity|].
  rewrite Ht, Hc.
  destruct (NewClient rt' (Namespace opts) (Address opts)) as [err|w]; [reflexivity|].
  now rewrite (stopLoop_agree t args Hag).
Qed.

(** Every call on record was made with the timeout the command
    computed: its result is what [containerutil.Stop] gave for the one
    match of the request when handed that timeout. *)
Lemma stopAction_calls_at cmd args t :
  stopTimeout cmd = inr t ->
  Forall (fun c => call_timeout c = t /\
                   exists w, Containers rt w (call_req c) = inr [call_container c] /\
                             call_result c = (Stop rt w (call_container c) t).1)
         (calls (stopAction rt cmd args).2).
Proof.
  intros Ht. unfold stopAction.
  destruct (rootCmdFlags cmd) as [err|opts]; [constructor|].
  rewrite Ht.
  destruct (NewClient rt (Namespace opts) (Address opts)) as [err|w]; [constructor|].
  destruct (stopLoop_matched rt t args (w, emptyLog)) as (new & Hc & Hall).
  destruct (stopLoop_log rt t args (w, emptyLog)) as (new' & Hc' & _ & _ & Hto & _).
  rewrite Hc in Hc'. apply app_inv_head in Hc'. subst new'.
  destruct (stopLoop rt t (w, emptyLog) args) as [r [w' log]]. cbn in Hc |- *.
  rewrite Hc. rewrite Forall_forall in Hall, Hto. apply Forall_forall.
  intros c Hin. split; [now apply Hto|now apply Hall].
Qed.
End StopTimeoutFacts.

(** With a missing timeout the controller behind [containerutil.Stop]
    waits for the default and then escalates: the one stop call of a
    request leaves the graceful signal and the forceful signal at the
    default on record. *)
Lemma controllerStop_nil_escalates defaultTimeout observe E writeOut req e :
  candidates E req = [e] ->
  (forall k, (k <= defaultTimeout)%nat -> observe e k = NonTerminal) ->
  (stopLoop (controllerRuntime defaultTimeout observe E writeOut) None
     ([], emptyLog) [req]).2.1
  = [(e, [(0%nat, Graceful); (defaultTimeout, Forceful)])].
Proof.
  intros Hc Hobs. cbn [stopLoop].
  rewrite (Walk_single (controllerRuntime defaultTimeout observe E writeOut) _
             ([], emptyLog) req e) by (cbn; now rewrite Hc).
  rewrite OnFound_single. cbv zeta.
  assert (Stop (controllerRuntime defaultTimeout observe E writeOut) [] e None
          = (None, [(e, [(0%nat, Graceful); (defaultTimeout, Forceful)])])) as ->.
  { cbn [Stop controllerRuntime]. unfold controllerStop. cbn [option_map].
    rewrite (requested_escalates defaultTimeout (observe e)
               {| target := e; timeout := None |}) by (cbn; auto).
    reflexivity. }
  cbn [fst snd].
  destruct (WriteOut (controllerRuntime defaultTimeout observe E writeOut)
              (req +:+ newline)); reflexivity.
Qed.

(** C5.  The timeout handed to [containerutil.Stop] is [nil] exactly
    when the flag [time] was not set on the command line; when it was
    set, it is the flag's value in seconds as a duration.  This holds
    of the calls themselves: the result on record of every call is what
    [containerutil.Stop] gave when handed that timeout, and the command
    cannot tell two runtimes apart whose [containerutil.Stop] differ
    only at other timeouts.  A [nil] timeout stands for the backend's
    default, not for an unbounded wait: with the controller as
    [containerutil.Stop] and the flag absent, a container that stays
    non-terminal is terminated by force when the default has elapsed. *)
Theorem stop_timeout_nil_iff_flag_absent {World Container : Type}
    (rt : Runtime World Container) (cmd : Command) (args : list string) :
  (stopTimeout cmd = inr None <-> timeChanged cmd = false) /\
  Forall (fun c =>
            (call_timeout c = None <-> timeChanged cmd = false) /\
            exists w, Containers rt w (call_req c) = inr [call_container c] /\
                      call_result c
                      = (Stop rt w (call_container c) (call_timeout c)).1)
         (calls (stopAction rt cmd args).2) /\
  Forall (fun c => timeChanged cmd = true ->
                   exists v, timeGetInt cmd = inr v /\
                             call_timeout c = Some (wrap64 (v * Second)))
         (calls (stopAction rt cmd args).2) /\
  (timeChanged cmd = false ->
   forall rt', agreeAt None rt rt' ->
               stopAction rt cmd args = stopAction rt' cmd args) /\
  (forall v, timeChanged cmd = true -> timeGetInt cmd = inr v ->
   forall rt', agreeAt (Some (wrap64 (v * Second))) rt rt' ->
               stopAction rt cmd args = stopAction rt' cmd args) /\
  (forall t defaultTimeout observe E writeOut req e,
      timeChanged cmd = false -> stopTimeout cmd = inr t ->
      candidates E req = [e] ->
      (forall k, (k <= defaultTimeout)%nat -> observe e k = NonTerminal) ->
      (stopLoop (controllerRuntime defaultTimeout observe E writeOut) t
         ([], emptyLog) [req]).2.1
      = [(e, [(0%nat, Graceful); (defaultTimeout, Forceful)])]).
Proof.
  assert (forall o, stopTimeout cmd = inr o -> (o = None <-> timeChanged cmd = false))
    as Hiff.
  { unfold stopTimeout. intros o. destruct (timeChanged cmd).
    - destruct (timeGetInt cmd); [discriminate|]. intros [= <-]. split; discriminate.
    - intros [= <-]. split; reflexivity. }
  assert (timeChanged cmd = false -> stopTimeout cmd = inr None) as Hnil
    by (unfold stopTimeout; now intros ->).
  assert (forall v, timeChanged cmd = true -> timeGetInt cmd = inr v ->
                    stopTimeout cmd = inr (Some (wrap64 (v * Second)))) as Hset
    by (unfold stopTimeout; now intros v -> ->).
  split; [split; [intros H; now apply (Hiff None)|exact Hnil]|].
  split.
  { destruct (stopTimeout cmd) as [err|t] eqn:Ht.
    - unfold stopAction. destruct (rootCmdFlags cmd); [constructor|].
      rewrite Ht. constructor.
    - eapply Forall_impl; [exact (stopAction_calls_at rt cmd args t Ht)|].
      intros c (-> & w & Hq & Hr). split; [now apply Hiff|].
      exists w. split; assumption. }
  split.
  { destruct (stopAction_log rt cmd args) as (_ & _ & Hto & _).
    eapply Forall_impl; [exact Hto|]. intros c Hc Hch.
    unfold stopTimeout in Hc. rewrite Hch in Hc.
    destruct (timeGetInt cmd) as [err|v]; [discriminate|].
    exists v. split; [reflexivity|]. now injection Hc as <-. }
  split.
  { intros Hch rt' Hag. exact (stopAction_agree rt rt' cmd args None (Hnil Hch) Hag). }
  split.
  { intros v Hch Hv rt' Hag.
    exact (stopAction_agree rt rt' cmd args _ (Hset v Hch Hv) Hag). }
  intros t defaultTimeout observe E writeOut req e Hch Ht Hc Hobs.
  rewrite (Hnil Hch) in Ht. injection Ht as <-.
  now apply controllerStop_nil_escalates.
Qed.

Lemma stop_timeout_nil_iff_flag_absent_witness :
  (stopAction (entityRuntime fleet echoStop (fun _ => None)) plainCommand ["web"]).1
  = Some (ErrRuntime "stop with timeout nil") /\
  (stopAction (entityRuntime fleet echoStop (fun _ => None)) (timedCommand 5) ["web"]).1
  = Some (ErrRuntime "stop with timeout 5000000000") /\
  Forall (fun c => call_timeout c = Some 5000000000 /\
                   call_result c = Some (ErrRuntime "stop with timeout 5000000000"))
         (calls (stopAction (entityRuntime fleet echoStop (fun _ => None))
                   (timedCommand 5) ["web"]).2) /\
  (stopLoop (controllerRuntime 3 (fun _ _ => NonTerminal) fleet (fun _ => None)) None
     ([], emptyLog) ["web"]).2.1
  = [({| ID := "ab12cd34"; Name := Some "web"; Status := running |},
      [(0%nat, Graceful); (3%nat, Forceful)])].
Proof.
  split; [reflexivity|]. split; [reflexivity|].
  split.
  - destruct (stop_timeout_nil_iff_flag_absent
                (entityRuntime fleet echoStop (fun _ => None)) (timedCommand 5) ["web"])
      as (_ & H2 & H3 & _).
    rewrite Forall_forall in H2, H3. apply Forall_forall. intros c Hin.
    destruct (H2 c Hin) as (_ & w & _ & ->).
    destruct (H3 c Hin eq_refl) as (v & Hv & ->).
    injection Hv as <-. split; reflexivity.
  - destruct (stop_timeout_nil_iff_flag_absent
                (sampleRuntime fleet []) plainCommand ["web"])
      as (_ & _ & _ & _ & _ & H).
    apply (H None 3%nat (fun _ _ => NonTerminal) fleet (fun _ => None) "web");
      reflexivity.
Defined.

(** X1.  A [--time] value between -9223372036 and 9223372036 seconds
    is handed to [containerutil.Stop] exactly: the duration is the
    value times [time.Second], without wrap-around.  Every call on
    record has the result [containerutil.Stop] gave when handed that
    duration, and the command cannot tell two runtimes apart whose
    [containerutil.Stop] differ only at other timeouts. *)
Theorem stop_timeout_exact_seconds {World Container : Type}
    (rt : Runtime World Container) (cmd : Command) (args : list string) (v : Z) :
  timeChanged cmd = true ->
  timeGetInt cmd = inr v ->
  -9223372036 <= v <= 9223372036 ->
  stopTimeout cmd = inr (Some (v * Second)) /\
  Forall (fun c =>
            call_timeout c = Some (v * Second) /\
            exists w, Containers rt w (call_req c) = inr [call_container c] /\
                      call_result c
                      = (Stop rt w (call_container c) (Some (v * Second))).1)
         (calls (stopAction rt cmd args).2) /\
  (forall rt', agreeAt (Some (v * Second)) rt rt' ->
               stopAction rt cmd args = stopAction rt' cmd args).
Proof.
  intros Hch Hv Hb.
  assert (stopTimeout cmd = inr (Some (v * Second))) as Ht.
  { unfold stopTimeout. rewrite Hch, Hv. do 2 f_equal.
    unfold wrap64, Second.
    change (2 ^ 63) with 9223372036854775808.
    change (2 ^ 64) with 18446744073709551616.
    rewrite Z.mod_small; lia. }
  split; [exact Ht|]. split.
  - exact (stopAction_calls_at rt cmd args _ Ht).
  - intros rt' Hag. exact (stopAction_agree rt rt' cmd args _ Ht Hag).
Qed.

Lemma stop_timeout_exact_seconds_witness :
  (stopAction (entityRuntime fleet echoStop (fun _ => None)) (timedCommand (-1))
     ["web"]).1
  = Some (ErrRuntime "stop with timeout -1000000000") /\
  Forall (fun c => call_result c = Some (ErrRuntime "stop with timeout -1000000000"))
         (calls (stopAction (entityRuntime fleet echoStop (fun _ => None))
                   (timedCommand (-1)) ["web"]).2).
Proof.
  split; [reflexivity|].
  destruct (stop_timeout_exact_seconds (entityRuntime fleet echoStop (fun _ => None))
              (timedCommand (-1)) ["web"] (-1)) as (_ & H & _);
    [reflexivity | reflexivity | lia |].
  eapply Forall_impl; [exact H|].
  intros c (_ & w & _ & ->). reflexivity.
Defined.

(** X2.  With a 64-bit [int], a [--time] value from 9223372037 to
    18446744073 seconds overflows the duration: what is handed to
    [containerutil.Stop] is the product less 2^64, a negative
    duration.  Every call on record has the result
    [containerutil.Stop] gave when handed that duration, and the
    command cannot tell two runtimes apart whose [containerutil.Stop]
    differ only at other timeouts. *)
Theorem stop_timeout_overflows_negative {World Container : Type}
    (rt : Runtime World Container) (cmd : Command) (args : list string) (v : Z) :
  timeChanged cmd = true ->
  timeGetInt cmd = inr v ->
  9223372037 <= v <= 18446744073 ->
  stopTimeout cmd = inr (Some (v * Second - 2 ^ 64)) /\
  v * Second - 2 ^ 64 < 0 /\
  Forall (fun c =>
            call_timeout c = Some (v * Second - 2 ^ 64) /\
            exists w, Containers rt w (call_req c) = inr [call_container c] /\
                      call_result c
                      = (Stop rt w (call_container c) (Some (v * Second - 2 ^ 64))).1)
         (calls (stopAction rt cmd args).2) /\
  (forall rt', agreeAt (Some (v * Second - 2 ^ 64)) rt rt' ->
               stopAction rt cmd args = stopAction rt' cmd args).
Proof.
  intros Hch Hv Hb.
  assert (stopTimeout cmd = inr (Some (v * Second - 2 ^ 64))) as Ht.
  { unfold stopTimeout. rewrite Hch, Hv. do 2 f_equal.
    unfold wrap64, Second.
    change (2 ^ 63) with 9223372036854775808.
    change (2 ^ 64) with 18446744073709551616.
    assert ((v * 1000000000 + 9223372036854775808) mod 18446744073709551616
            = v * 1000000000 + 9223372036854775808 - 18446744073709551616) as ->.
    { symmetry. apply (Z.mod_unique _ _ 1); lia. }
    lia. }
  split; [exact Ht|]. split.
  { unfold Second. change (2 ^ 64) with 18446744073709551616. lia. }
  split.
  - exact (stopAction_calls_at rt cmd args _ Ht).
  - intros rt' Hag. exact (stopAction_agree rt rt' cmd args _ Ht Hag).
Qed.

Lemma stop_timeout_overflows_negative_witness :
  (stopAction (entityRuntime fleet echoStop (fun _ => None)) (timedCommand 9223372037)
     ["web"]).1
  = Some (ErrRuntime "stop with timeout -9223372036709551616") /\
  9223372037 * Second - 2 ^ 64 < 0 /\
  Forall (fun c =>
            call_result c = Some (ErrRuntime "stop with timeout -9223372036709551616"))
         (calls (stopAction (entityRuntime fleet echoStop (fun _ => None))
                   (timedCommand 9223372037) ["web"]).2).
Proof.
  split; [reflexivity|].
  destruct (stop_timeout_overflows_negative
              (entityRuntime fleet echoStop (fun _ => None))
              (timedCommand 9223372037) ["web"] 9223372037) as (_ & Hneg & H & _);
    [reflexivity | reflexivity | lia |].
  split; [exact Hneg|].
  eapply Forall_impl; [exact H|].
  intros c (_ & w & _ & ->). reflexivity.
Defined.

(** X3.  With at least one argument, the command never prints more
    lines than it has arguments, and it returns no error exactly when
    it has printed one line per argument, the standard output and the
    standard error taken together. *)
Theorem stop_succeeds_iff_line_per_argument {World Container : Type}
    (rt : Runtime World Container) (cmd : Command) (args : list string) :
  args <> [] ->
  (printedLines (stopAction rt cmd args).2 <= length args)%nat /\
  ((stopAction rt cmd args).1 = None <->
   printedLines (stopAction rt cmd args).2 = length args).
Proof.
  intros Hargs.
  assert (0 < length args)%nat as Hlen by (destruct args; [congruence|cbn; lia]).
  unfold stopAction.
  destruct (rootCmdFlags cmd) as [err|opts];
    [cbn; split; [lia|split; [discriminate|lia]]|].
  destruct (stopTimeout cmd) as [err|t];
    [cbn; split; [lia|split; [discriminate|lia]]|].
  destruct (NewClient rt (Namespace opts) (Address opts)) as [err|w];
    [cbn; split; [lia|split; [discriminate|lia]]|].
  pose proof (stopLoop_lines rt t args (w, emptyLog)) as H.
  destruct (stopLoop rt t (w, emptyLog) args) as [[err|] [w' log]]; cbn in H |- *.
  - split; [lia|]. split; [discriminate|lia].
  - split; [lia|]. split; [intros _; lia|reflexivity].
Qed.

Lemma stop_succeeds_iff_line_per_argument_witness :
  (printedLines (stopAction (sampleRuntime fleet ["ab12ef56"]) plainCommand
                   ["web"; "ab12e"; "nosuch"; "db"]).2 <= 4)%nat /\
  ((stopAction (sampleRuntime fleet ["ab12ef56"]) plainCommand
      ["web"; "ab12e"; "nosuch"; "db"]).1 = None <->
   printedLines (stopAction (sampleRuntime fleet ["ab12ef56"]) plainCommand
                   ["web"; "ab12e"; "nosuch"; "db"]).2 = 4%nat).
Proof.
  apply (stop_succeeds_iff_line_per_argument (sampleRuntime fleet ["ab12ef56"])
           plainCommand ["web"; "ab12e"; "nosuch"; "db"]).
  discriminate.
Defined.

(** X4.  When the request has one match and the stop call fails with
    an error that is not a not-found error, the command returns that
    very error; the call is on record, nothing is printed on either
    stream and the remaining requests are not processed. *)
Theorem stop_error_is_returned_as_is {World Container : Type}
    (rt : Runtime World Container) (t : option Z) (w w' : World)
    (log : Log Container) (req : string) (c : Container)
    (rest : list string) (err : error) :
  Containers rt w req = inr [c] ->
  Stop rt w c t = (Some err, w') ->
  IsNotFound err = false ->
  stopLoop rt t (w, log) (req :: rest)
  = (Some err,
     (w', {| stdout := stdout log;
             stderr := stderr log;
             calls := calls log ++
                      [ {| call_req := req; call_container := c;
                           call_timeout := t; call_result := Some err |} ] |})).
Proof.
  intros Hq Hstop Hnf. cbn [stopLoop].
  rewrite (Walk_single rt _ (w, log) req c Hq).
  unfold OnFound. cbn. rewrite Hstop, Hnf. reflexivity.
Qed.

Lemma stop_error_is_returned_as_is_witness :
  stopLoop (entityRuntime fleet (failingStop "permission denied") (fun _ => None))
    (Some 5000000000) (fleet, emptyLog) ["web"; "db"]
  = (Some (ErrRuntime "permission denied"),
     (fleet,
      {| stdout := []; stderr := [];
         calls := [ {| call_req := "web";
                       call_container :=
                         {| ID := "ab12cd34"; Name := Some "web"; Status := running |};
                       call_timeout := Some 5000000000;
                       call_result := Some (ErrRuntime "permission denied") |} ] |})).
Proof.
  apply (stop_error_is_returned_as_is
           (entityRuntime fleet (failingStop "permission denied") (fun _ => None))
           (Some 5000000000) fleet fleet emptyLog "web" _ ["db"]
           (ErrRuntime "permission denied")); reflexivity.
Defined.

(** X5.  When the stop call succeeds but the line cannot be written to
    the standard output, the command returns the error of the write:
    the container has been stopped, no line is on record and the
    remaining requests are not processed. *)
Theorem stop_write_failure_aborts {World Container : Type}
    (rt : Runtime World Container) (t : option Z) (w w' : World)
    (log : Log Container) (req : string) (c : Container)
    (rest : list string) (err : error) :
  Containers rt w req = inr [c] ->
  Stop rt w c t = (None, w') ->
  WriteOut rt (req +:+ newline) = Some err ->
  stopLoop rt t (w, log) (req :: rest)
  = (Some err,
     (w', {| stdout := stdout log;
             stderr := stderr log;
             calls := calls log ++
                      [ {| call_req := req; call_container := c;
                           call_timeout := t; call_result := None |} ] |})).
Proof.
  intros Hq Hstop Hw. cbn [stopLoop].
  rewrite (Walk_single rt _ (w, log) req c Hq).
  unfold OnFound. cbn. rewrite Hstop, Hw. reflexivity.
Qed.

Lemma stop_write_failure_aborts_witness :
  stopLoop (entityRuntime fleet (fakeStop []) brokenPipe) None (fleet, emptyLog)
    ["db"; "web"]
  = (Some (ErrRuntime "write /dev/stdout: broken pipe"),
     ((fakeStop [] fleet {| ID := "ff00aa11"; Name := Some "db"; Status := running |}
         None).2,
      {| stdout := []; stderr := [];
         calls := [ {| call_req := "db";
                       call_container :=
                         {| ID := "ff00aa11"; Name := Some "db"; Status := running |};
                       call_timeout := None;
                       call_result := None |} ] |})).
Proof.
  apply (stop_write_failure_aborts (entityRuntime fleet (fakeStop []) brokenPipe)
           None fleet _ emptyLog "db" _ ["web"] _); reflexivity.
Defined.

(** X6.  Arguments behind a failing one have no effect: when the
    command fails on the arguments [pre], it does exactly the same on
    [pre ++ post].  In every case what the command does on [pre] is the
    beginning of what it does on [pre ++ post]: the stop calls and the
    lines on both streams are only added to. *)
Theorem stop_failure_hides_later_arguments {World Container : Type}
    (rt : Runtime World Container) (cmd : Command) (pre post : list string) :
  ((stopAction rt cmd pre).1 <> None ->
   stopAction rt cmd (pre ++ post) = stopAction rt cmd pre) /\
  calls (stopAction rt cmd pre).2 `prefix_of` calls (stopAction rt cmd (pre ++ post)).2 /\
  stdout (stopAction rt cmd pre).2 `prefix_of` stdout (stopAction rt cmd (pre ++ post)).2 /\
  stderr (stopAction rt cmd pre).2 `prefix_of` stderr (stopAction rt cmd (pre ++ post)).2.
Proof.
  unfold stopAction.
  destruct (rootCmdFlags cmd) as [err|opts]; [now repeat split|].
  destruct (stopTimeout cmd) as [err|t]; [now repeat split|].
  destruct (NewClient rt (Namespace opts) (Address opts)) as [err|w];
    [now repeat split|].
  rewrite stopLoop_app.
  destruct (stopLoop rt t (w, emptyLog) pre) as [[err|] [w1 log1]]; cbn.
  - now repeat split.
  - split; [congruence|].
    destruct (stopLoop_log rt t post (w1, log1)) as (new & Hc & Ho & He & _).
    destruct (stopLoop rt t (w1, log1) post) as [r [w2 log2]]. cbn in *.
    rewrite Hc, Ho, He. repeat split; apply prefix_app_r; reflexivity.
Qed.

Lemma stop_failure_hides_later_arguments_witness :
  stopAction (sampleRuntime fleet []) plainCommand (["web"; "ab12"] ++ ["db"])
  = stopAction (sampleRuntime fleet []) plainCommand ["web"; "ab12"].
Proof.
  destruct (stop_failure_hides_later_arguments (sampleRuntime fleet []) plainCommand
              ["web"; "ab12"] ["db"]) as [H _].
  apply H. discriminate.
Defined.

(** X7.  Every stop call of the command was made on the one container
    the runtime returned for the request of that call, and the result
    on record is the one the call gave: no container is stopped for a
    request with no match or with several matches. *)
Theorem stop_calls_are_unique_matches {World Container : Type}
    (rt : Runtime World Container) (cmd : Command) (args : list string) :
  Forall (fun c => exists w,
              Containers rt w (call_req c) = inr [call_container c] /\
              stopTimeout cmd = inr (call_timeout c) /\
              call_result c = (Stop rt w (call_container c) (call_timeout c)).1)
         (calls (stopAction rt cmd args).2).
Proof.
  unfold stopAction.
  destruct (rootCmdFlags cmd) as [err|opts]; [constructor|].
  destruct (stopTimeout cmd) as [err|t]; [constructor|].
  destruct (NewClient rt (Namespace opts) (Address opts)) as [err|w]; [constructor|].
  destruct (stopLoop_matched rt t args (w, emptyLog)) as (new & Hc & Hall).
  destruct (stopLoop_log rt t args (w, emptyLog)) as (new' & Hc' & _ & _ & Hto & _).
  rewrite Hc in Hc'. apply app_inv_head in Hc'. subst new'.
  destruct (stopLoop rt t (w, emptyLog) args) as [r [w' log]]. cbn in Hc |- *.
  rewrite Hc.
  rewrite Forall_forall in Hall, Hto. apply Forall_forall. intros c Hin.
  destruct (Hall c Hin) as (w0 & Hq & Hr). rewrite (Hto c Hin).
  exists w0. repeat split; assumption.
Qed.
